(** * EMC2101 fan controller driver (emc2101_conf.py): model and properties

    The driver is a Python class, [Emc2101], whose methods talk to the chip
    through an [smbus.SMBus] object.  The methods are embedded as computations
    in a state-and-exception monad over a model of that bus object: a register
    file of unsigned bytes per device address, and a journal of the calls the
    driver makes on the bus, in the order it makes them. *)

From Stdlib Require Import ZArith List Bool Lia.
Import ListNotations.
Open Scope Z_scope.

(** ** Python values used by the driver *)

(** The exceptions of the Python run time that the driver's own code can
    raise.  What the bus library raises is outside the model: the bus below
    always answers, where the library fails on a transport error and refuses
    an argument that does not fit a C int with [OverflowError]. *)
Inductive exn : Type :=
| IndexError.

Inductive result (A : Type) : Type :=
| Ok (a : A)
| Raise (e : exn).

Arguments Ok {A} a.
Arguments Raise {A} e.

(** A Python [range(start, stop, step)] object. *)
Record pyrange : Type := Range { start : Z; stop : Z; step : Z }.

(** [len(r)]. *)
Definition range_len (r : pyrange) : Z :=
  if 0 <? step r then Z.max 0 ((stop r - start r + step r - 1) / step r)
  else if step r <? 0 then Z.max 0 ((start r - stop r - step r - 1) / (- step r))
  else 0.

(** A Python subscript [i] against a sequence of length [n]: negative
    subscripts count from the end, anything outside is refused. *)
Definition subscript (n i : Z) : result Z :=
  let j := if i <? 0 then i + n else i in
  if (j <? 0) || (n <=? j) then Raise IndexError else Ok j.

(** [r[i]]. *)
Definition range_getitem (r : pyrange) (i : Z) : result Z :=
  match subscript (range_len r) i with
  | Ok j => Ok (start r + j * step r)
  | Raise e => Raise e
  end.

(** The values [for i in r] runs through. *)
Definition range_iter (r : pyrange) : list Z :=
  map (fun k => start r + Z.of_nat k * step r) (seq 0 (Z.to_nat (range_len r))).

(** [range(n)]. *)
Definition range1 (n : Z) : pyrange := Range 0 n 1.

(** [l[i]] for a Python list. *)
Definition list_getitem {A : Type} (l : list A) (i : Z) : result A :=
  match subscript (Z.of_nat (length l)) i with
  | Ok j =>
      match nth_error l (Z.to_nat j) with
      | Some a => Ok a
      | None => Raise IndexError
      end
  | Raise e => Raise e
  end.

(** ** The bus object *)

(** One call on the [smbus.SMBus] object, with the arguments as the driver
    passed them. *)
Inductive transaction : Type :=
| ReadByteData (addr cmd : Z)
| WriteByteData (addr cmd val : Z)
| Close.

(** The bus: the register file of every device on it ([regs addr cmd]), and
    the calls made so far, oldest first. *)
Record SMBus : Type := MkBus {
  regs : Z -> Z -> Z;
  journal : list transaction
}.

(** The transport carries command codes and data as unsigned bytes. *)
Definition u8 (v : Z) : Z := v mod 256.

Definition log (t : transaction) (bus : SMBus) : SMBus :=
  MkBus (regs bus) (journal bus ++ [t]).

Definition store (addr cmd val : Z) (bus : SMBus) : SMBus :=
  MkBus (fun a c => if (a =? addr) && (c =? u8 cmd) then u8 val else regs bus a c)
        (journal bus).

(** The byte a register holds. *)
Definition byte_at (bus : SMBus) (addr cmd : Z) : Z := u8 (regs bus addr (u8 cmd)).

(** ** Methods as computations on the bus *)

Definition M (A : Type) : Type := SMBus -> result A * SMBus.

Definition ret {A : Type} (a : A) : M A := fun bus => (Ok a, bus).

Definition bind {A B : Type} (m : M A) (f : A -> M B) : M B :=
  fun bus =>
    match m bus with
    | (Ok a, bus') => f a bus'
    | (Raise e, bus') => (Raise e, bus')
    end.

(** A pure step that may raise. *)
Definition lift {A : Type} (r : result A) : M A := fun bus => (r, bus).

Declare Scope py_scope.
Delimit Scope py_scope with py.
Notation "x <- m ;; k" := (bind m (fun x => k))
  (at level 100, m at next level, right associativity) : py_scope.
Notation "m ;;; k" := (bind m (fun _ => k))
  (at level 100, right associativity) : py_scope.
Open Scope py_scope.

(** [for i in idxs: body(i)]. *)
Fixpoint for_each (idxs : list Z) (body : Z -> M unit) : M unit :=
  match idxs with
  | [] => ret tt
  | i :: rest => body i ;;; for_each rest body
  end.

(** [[item(i) for i in idxs]]. *)
Fixpoint comprehension {A : Type} (idxs : list Z) (item : Z -> M A) : M (list A) :=
  match idxs with
  | [] => ret []
  | i :: rest =>
      a <- item i ;;
      l <- comprehension rest item ;;
      ret (a :: l)
  end.

(** [SMBus.read_byte_data(addr, cmd)], for arguments the library accepts
    (see [c_int]). *)
Definition read_byte_data (addr cmd : Z) : M Z :=
  fun bus => (Ok (byte_at bus addr cmd), log (ReadByteData addr cmd) bus).

(** [SMBus.write_byte_data(addr, cmd, val)], for arguments the library
    accepts (see [c_int]). *)
Definition write_byte_data (addr cmd val : Z) : M unit :=
  fun bus => (Ok tt, log (WriteByteData addr cmd val) (store addr cmd val bus)).

(** [SMBus.close()]. *)
Definition bus_close : M unit :=
  fun bus => (Ok tt, log Close bus).

(** ** The class [Emc2101] *)

Module Emc2101.

Definition MFG_ID_SMSC : Z := 0x5D.
Definition PART_ID_EMC2101 : Z := 0x16.
Definition PART_ID_EMC2101R : Z := 0x28.

Definition I2C_ADDR : Z := 0x4C.

Definition MAX_LUT_SPEED : Z := 0x3F.
Definition MAX_LUT_TEMP : Z := 0x7F.

Definition STATUS_BUSY : Z := 0x80.
Definition STATUS_INTHIGH : Z := 0x40.
Definition STATUS_EEPROM : Z := 0x20.
Definition STATUS_EXTHIGH : Z := 0x10.
Definition STATUS_EXTLOW : Z := 0x08.
Definition STATUS_FAULT : Z := 0x04.
Definition STATUS_TCRIT : Z := 0x02.
Definition STATUS_TACH : Z := 0x01.

Definition STATUS_ALERT : Z :=
  Z.lor (Z.lor (Z.lor (Z.lor (Z.lor STATUS_TACH STATUS_TCRIT) STATUS_FAULT)
                      STATUS_EXTLOW) STATUS_EXTHIGH) STATUS_INTHIGH.

Definition CONFIG_MASK : Z := 0x80.
Definition CONFIG_STANDBY : Z := 0x40.
Definition CONFIG_FAN_STANDBY : Z := 0x20.
Definition CONFIG_DAC : Z := 0x10.
Definition CONFIG_DIS_TO : Z := 0x08.
Definition CONFIG_ALT_TACH : Z := 0x04.
Definition CONFIG_TCRIT_OVR : Z := 0x02.
Definition CONFIG_QUEUE : Z := 0x01.

Definition TEMP_FAULT_OPENCIRCUIT : Z := 0x3F8.
Definition TEMP_FAULT_SHORT : Z := 0x3FF.

Definition INTERNAL_TEMP : Z := 0x00.
Definition EXTERNAL_TEMP_MSB : Z := 0x01.
Definition EXTERNAL_TEMP_LSB : Z := 0x10.
Definition REG_STATUS : Z := 0x02.
Definition REG_CONFIG : Z := 0x03.

Definition REG_LOOKUP_T : pyrange := Range 0x50 0x5F 2.
Definition REG_LOOKUP_S : pyrange := Range 0x51 (0x5F + 1) 2.

Definition LUT_HYSTERESIS : Z := 0x4F.
Definition LUT_BASE : Z := 0x50.

Definition I2CADDRESS : Z := 0x4C.

Definition _read (register_address : Z) : M Z :=
  read_byte_data I2CADDRESS register_address.

Definition _write (register_address data_byte : Z) : M unit :=
  write_byte_data I2CADDRESS register_address data_byte.

Definition _writeBool (register_address registermask : Z) (value : bool) : M unit :=
  reg <- _read register_address ;;
  if value
  then _write register_address (Z.lor reg registermask)
  else _write register_address (Z.land reg (Z.lnot registermask)).

Definition close : M unit := bus_close.

(** The property [internalTemp]. *)
Definition internalTemp : M Z :=
  _read INTERNAL_TEMP.

(** The property [dacMode]: [bool(n)] of an integer is [n != 0]. *)
Definition dacMode : M bool :=
  reg <- _read REG_CONFIG ;;
  ret (negb (Z.land reg CONFIG_DAC =? 0)).

Definition dacMode_setter (value : bool) : M unit :=
  _writeBool REG_CONFIG CONFIG_DAC value.

(** The property [fanControlLookupTable]: both components of an entry are
    read through [REG_LOOKUP_T]. *)
Definition fanControlLookupTable : M (list (Z * Z)) :=
  comprehension (range_iter (range1 8))
    (fun i =>
       rt <- lift (range_getitem REG_LOOKUP_T i) ;;
       t <- _read rt ;;
       rt' <- lift (range_getitem REG_LOOKUP_T i) ;;
       s <- _read rt' ;;
       ret (t, s)).

Definition fanControlLookupTable_setter (value : list (Z * Z)) : M unit :=
  for_each (range_iter (range1 (Z.of_nat (length value))))
    (fun i =>
       p <- lift (list_getitem value i) ;;
       let '(x, y) := p in
       rt <- lift (range_getitem REG_LOOKUP_T i) ;;
       _write rt x ;;;
       rs <- lift (range_getitem REG_LOOKUP_S i) ;;
       _write rs y).

End Emc2101.

Import Emc2101.

(** ** What the claims speak of *)

(** A bus with a given register file on which no call has been made yet. *)
Definition fresh_bus (f : Z -> Z -> Z) : SMBus := MkBus f [].

(** The effect of one recorded call on the bus. *)
Definition replay (t : transaction) (bus : SMBus) : SMBus :=
  match t with
  | ReadByteData a c => snd (read_byte_data a c bus)
  | WriteByteData a c v => snd (write_byte_data a c v bus)
  | Close => snd (bus_close bus)
  end.

Definition replay_all (ts : list transaction) (bus : SMBus) : SMBus :=
  fold_left (fun b t => replay t b) ts bus.

(** The two writes that program slot [i] of the lookup table with pair [p]:
    temperature at [0x50 + 2*i], speed at [0x51 + 2*i]. *)
Definition slot_writes (i : nat) (p : Z * Z) : list transaction :=
  [ WriteByteData I2CADDRESS (0x50 + 2 * Z.of_nat i) (fst p);
    WriteByteData I2CADDRESS (0x51 + 2 * Z.of_nat i) (snd p) ].

(** The writes that program slots [k], [k+1], ... with the pairs of [value],
    in that order. *)
Fixpoint table_writes (k : nat) (value : list (Z * Z)) : list transaction :=
  match value with
  | [] => []
  | p :: rest => slot_writes k p ++ table_writes (S k) rest
  end.

(** The device a call addresses; [Close] addresses none. *)
Definition device_of (t : transaction) : option Z :=
  match t with
  | ReadByteData a _ => Some a
  | WriteByteData a _ _ => Some a
  | Close => None
  end.

Definition addresses_only (dev : Z) (t : transaction) : Prop :=
  match device_of t with
  | Some a => a = dev
  | None => True
  end.

(** The operations of a device handle. *)
Inductive operation : Type :=
| OpRead (register_address : Z)
| OpWrite (register_address data_byte : Z)
| OpWriteBool (register_address registermask : Z) (value : bool)
| OpClose
| OpInternalTemp
| OpDacMode
| OpSetDacMode (value : bool)
| OpLookupTable
| OpSetLookupTable (value : list (Z * Z)).

(** The bus after an operation, whether it returned or raised. *)
Definition bus_after (op : operation) (bus : SMBus) : SMBus :=
  match op with
  | OpRead r => snd (_read r bus)
  | OpWrite r d => snd (_write r d bus)
  | OpWriteBool r m v => snd (_writeBool r m v bus)
  | OpClose => snd (close bus)
  | OpInternalTemp => snd (internalTemp bus)
  | OpDacMode => snd (dacMode bus)
  | OpSetDacMode v => snd (dacMode_setter v bus)
  | OpLookupTable => snd (fanControlLookupTable bus)
  | OpSetLookupTable value => snd (fanControlLookupTable_setter value bus)
  end.

(** Setting ([value = true]) or clearing a flag of the configuration
    register, as every flag setter does through [_writeBool]; the bus it
    leaves. *)
Definition set_flag (F : Z) (value : bool) (bus : SMBus) : SMBus :=
  snd (_writeBool REG_CONFIG F value bus).

(** The eight flags of the configuration register. *)
Definition CONFIG_FLAGS : list Z :=
  [ CONFIG_MASK; CONFIG_STANDBY; CONFIG_FAN_STANDBY; CONFIG_DAC;
    CONFIG_DIS_TO; CONFIG_ALT_TACH; CONFIG_TCRIT_OVR; CONFIG_QUEUE ].

(** The configuration byte of the chip. *)
Definition config_byte (bus : SMBus) : Z := byte_at bus I2CADDRESS REG_CONFIG.

(** Whether a call writes the register [c] of device [a]. *)
Definition touches (a c : Z) (t : transaction) : bool :=
  match t with
  | WriteByteData a' c' _ => (a =? a') && (c =? u8 c')
  | _ => false
  end.

(** The sixteen reads of the getter: for each slot, the temperature register
    of the slot twice. *)
Definition table_reads : list transaction :=
  flat_map (fun i => [ ReadByteData I2CADDRESS (0x50 + 2 * Z.of_nat i);
                       ReadByteData I2CADDRESS (0x50 + 2 * Z.of_nat i) ])
           (seq 0 8).

(** Whatever [m] does, it only adds calls satisfying [P] to the journal. *)
Definition issues (P : transaction -> Prop) {A : Type} (m : M A) : Prop :=
  forall bus, exists new,
    journal (snd (m bus)) = journal bus ++ new /\ Forall P new.

(** [m] changes no register outside [Q]. *)
Definition confined (Q : Z -> Z -> Prop) {A : Type} (m : M A) : Prop :=
  forall bus a c, ~ Q a c -> regs (snd (m bus)) a c = regs bus a c.

(** The registers of the lookup table on the chip. *)
Definition lut_block (a c : Z) : Prop := a = I2CADDRESS /\ 0x50 <= c <= 0x5F.

Definition is_write (t : transaction) : bool :=
  match t with
  | WriteByteData _ _ _ => true
  | _ => false
  end.

(** The integers the bus library takes as an argument: those that fit a C
    [int].  The model of the bus stands for the library on these. *)
Definition c_int (v : Z) : Prop := - 2147483648 <= v <= 2147483647.

(** Every component of the pairs is an integer the bus library takes. *)
Definition c_int_pairs (value : list (Z * Z)) : Prop :=
  Forall (fun p => c_int (fst p) /\ c_int (snd p)) value.

(** The operations that only query the chip, or release the bus. *)
Definition read_only (op : operation) : bool :=
  match op with
  | OpRead _ | OpClose | OpInternalTemp | OpDacMode | OpLookupTable => true
  | _ => false
  end.

(** The six alarm flags that [STATUS_ALERT] is built from. *)
Definition ALERT_FLAGS : list Z :=
  [ STATUS_TACH; STATUS_TCRIT; STATUS_FAULT; STATUS_EXTLOW; STATUS_EXTHIGH;
    STATUS_INTHIGH ].

(** ** External temperature *)

Section ExternalTemperature.

(** The chip's fixed-point scale, which the specification leaves open. *)
Variable T : Type.
Variable scale : Z -> T.

Inductive external_temperature : Type :=
| OpenCircuitFault
| ShortCircuitFault
| Temperature (t : T).

(** Modelled from the spec: the decoding of the raw composite
    external-temperature value (section 4.2.1).  emc2101_conf.py declares
    the registers [EXTERNAL_TEMP_MSB] and [EXTERNAL_TEMP_LSB] and the two
    sentinels [TEMP_FAULT_OPENCIRCUIT] and [TEMP_FAULT_SHORT], and has no
    method that reads or decodes the external temperature. *)
Definition decode_external_temperature (value : Z) : external_temperature :=
  if value =? TEMP_FAULT_OPENCIRCUIT then OpenCircuitFault
  else if value =? TEMP_FAULT_SHORT then ShortCircuitFault
  else Temperature (scale value).

End ExternalTemperature.

Arguments OpenCircuitFault {T}.
Arguments ShortCircuitFault {T}.
Arguments Temperature {T} t.
Arguments decode_external_temperature {T} scale value.

(** ** Python sequences *)

Lemma subscript_in_range (n i : Z) : 0 <= i < n -> subscript n i = Ok i.
Proof.
  intros H. unfold subscript.
  assert (E1 : (i <? 0) = false) by (apply Z.ltb_ge; lia).
  assert (E2 : (n <=? i) = false) by (apply Z.leb_gt; lia).
  rewrite E1. cbv zeta. rewrite E1, E2. reflexivity.
Qed.

Lemma subscript_past_end (n i : Z) : 0 <= n <= i -> subscript n i = Raise IndexError.
Proof.
  intros H. unfold subscript.
  assert (E1 : (i <? 0) = false) by (apply Z.ltb_ge; lia).
  assert (E2 : (n <=? i) = true) by (apply Z.leb_le; lia).
  rewrite E1. cbv zeta. rewrite E1, E2. reflexivity.
Qed.

Lemma range1_len (n : Z) : 0 <= n -> range_len (range1 n) = n.
Proof.
  intros H. unfold range_len, range1; simpl.
  replace (n - 0 + 1 - 1) with n by lia. rewrite Z.div_1_r. lia.
Qed.

Lemma range1_iter (n : nat) : range_iter (range1 (Z.of_nat n)) = map Z.of_nat (seq 0 n).
Proof.
  unfold range_iter. rewrite range1_len by lia. rewrite Nat2Z.id.
  apply map_ext. intros k. simpl. lia.
Qed.

Lemma list_getitem_nth {A : Type} (l : list A) (i : nat) (a : A) :
  nth_error l i = Some a -> list_getitem l (Z.of_nat i) = Ok a.
Proof.
  intros H. unfold list_getitem.
  assert (i < length l)%nat by (apply nth_error_Some; congruence).
  rewrite subscript_in_range by lia. rewrite Nat2Z.id, H. reflexivity.
Qed.

Lemma REG_LOOKUP_T_getitem (i : nat) :
  (i < 8)%nat -> range_getitem REG_LOOKUP_T (Z.of_nat i) = Ok (0x50 + 2 * Z.of_nat i).
Proof.
  intros H. unfold range_getitem.
  change (range_len REG_LOOKUP_T) with 8.
  rewrite subscript_in_range by lia. cbn [start step REG_LOOKUP_T REG_LOOKUP_S].
  f_equal. lia.
Qed.

Lemma REG_LOOKUP_S_getitem (i : nat) :
  (i < 8)%nat -> range_getitem REG_LOOKUP_S (Z.of_nat i) = Ok (0x51 + 2 * Z.of_nat i).
Proof.
  intros H. unfold range_getitem.
  change (range_len REG_LOOKUP_S) with 8.
  rewrite subscript_in_range by lia. cbn [start step REG_LOOKUP_T REG_LOOKUP_S].
  f_equal. lia.
Qed.

Lemma REG_LOOKUP_T_past_end (i : Z) :
  8 <= i -> range_getitem REG_LOOKUP_T i = Raise IndexError.
Proof.
  intros H. unfold range_getitem.
  change (range_len REG_LOOKUP_T) with 8.
  rewrite subscript_past_end by lia. reflexivity.
Qed.

Lemma skipn_nth_cons {A : Type} (l : list A) (k : nat) (a : A) :
  nth_error l k = Some a -> skipn k l = a :: skipn (S k) l.
Proof.
  revert k. induction l as [|b l IH]; intros [|k] H; simpl in *; try discriminate.
  - injection H as ->. reflexivity.
  - apply IH. exact H.
Qed.

(** ** Replaying recorded calls *)

Lemma replay_all_app (ts1 ts2 : list transaction) (bus : SMBus) :
  replay_all (ts1 ++ ts2) bus = replay_all ts2 (replay_all ts1 bus).
Proof. apply fold_left_app. Qed.

Lemma journal_replay_all (ts : list transaction) (bus : SMBus) :
  journal (replay_all ts bus) = journal bus ++ ts.
Proof.
  revert bus. induction ts as [|t ts IH]; intros bus; simpl.
  - now rewrite app_nil_r.
  - rewrite IH. destruct t; simpl; rewrite <- app_assoc; reflexivity.
Qed.

(** ** The loop of the lookup-table setter *)

Lemma for_each_app (l1 l2 : list Z) (body : Z -> M unit) (bus : SMBus) :
  for_each (l1 ++ l2) body bus = (for_each l1 body ;;; for_each l2 body) bus.
Proof.
  revert bus. induction l1 as [|i l1 IH]; intros bus; simpl.
  - reflexivity.
  - unfold bind in *. destruct (body i bus) as [[[]|e] bus1].
    + apply IH.
    + reflexivity.
Qed.

Section SetterLoop.

Variable value : list (Z * Z).
Variable body : Z -> M unit.

(** One turn of the loop at a slot the table has. *)
Hypothesis body_slot : forall (i : nat) (p : Z * Z) (bus : SMBus),
  nth_error value i = Some p -> (i < 8)%nat ->
  body (Z.of_nat i) bus = (Ok tt, replay_all (slot_writes i p) bus).

Lemma for_each_slots (m k : nat) (bus : SMBus) :
  (k + m <= length value)%nat -> (k + m <= 8)%nat ->
  for_each (map Z.of_nat (seq k m)) body bus
  = (Ok tt, replay_all (table_writes k (firstn m (skipn k value))) bus).
Proof.
  revert k bus. induction m as [|m IH]; intros k bus Hlen H8.
  - reflexivity.
  - destruct (nth_error value k) as [p|] eqn:Hp.
    2:{ apply nth_error_None in Hp. lia. }
    rewrite (skipn_nth_cons _ _ _ Hp).
    cbn [seq map for_each firstn table_writes].
    unfold bind. rewrite (body_slot k p bus Hp) by lia.
    rewrite IH by lia. rewrite replay_all_app. reflexivity.
Qed.

End SetterLoop.

Lemma setter_turn (value : list (Z * Z)) (i : nat) (p : Z * Z) (bus : SMBus) :
  nth_error value i = Some p -> (i < 8)%nat ->
  (p <- lift (list_getitem value (Z.of_nat i)) ;;
   let '(x, y) := p in
   rt <- lift (range_getitem REG_LOOKUP_T (Z.of_nat i)) ;;
   _write rt x ;;;
   rs <- lift (range_getitem REG_LOOKUP_S (Z.of_nat i)) ;;
   _write rs y) bus
  = (Ok tt, replay_all (slot_writes i p) bus).
Proof.
  intros Hp Hi. unfold bind, lift.
  rewrite (list_getitem_nth _ _ _ Hp). destruct p as [x y].
  rewrite REG_LOOKUP_T_getitem, REG_LOOKUP_S_getitem by assumption.
  reflexivity.
Qed.

Lemma setter_within_table (value : list (Z * Z)) (bus : SMBus) :
  (length value <= 8)%nat ->
  fanControlLookupTable_setter value bus
  = (Ok tt, replay_all (table_writes 0 value) bus).
Proof.
  intros Hlen. unfold fanControlLookupTable_setter. rewrite range1_iter.
  rewrite (for_each_slots value) by (try apply setter_turn; lia).
  simpl skipn. rewrite firstn_all. reflexivity.
Qed.

Lemma setter_past_table (value : list (Z * Z)) (bus : SMBus) :
  (8 < length value)%nat ->
  fanControlLookupTable_setter value bus
  = (Raise IndexError, replay_all (table_writes 0 (firstn 8 value)) bus).
Proof.
  intros Hlen. unfold fanControlLookupTable_setter. rewrite range1_iter.
  replace (length value) with (8 + S (length value - 9))%nat by lia.
  rewrite seq_app, map_app, for_each_app. unfold bind at 1.
  rewrite (for_each_slots value) by (try apply setter_turn; lia).
  simpl skipn.
  destruct (nth_error value 8) as [[x y]|] eqn:Hp.
  2:{ apply nth_error_None in Hp. lia. }
  cbn [seq map for_each Nat.add]. unfold bind, lift.
  rewrite (list_getitem_nth value 8 (x, y) Hp).
  rewrite REG_LOOKUP_T_past_end by (simpl; lia).
  reflexivity.
Qed.

(** ** The register file under the writes of the setter *)

Lemma u8_small (v : Z) : 0 <= v < 256 -> u8 v = v.
Proof. apply Z.mod_small. Qed.

Lemma u8_range (v : Z) : 0 <= u8 v < 256.
Proof. apply Z.mod_pos_bound. lia. Qed.

Lemma u8_idem (v : Z) : u8 (u8 v) = u8 v.
Proof. apply u8_small, u8_range. Qed.

Lemma regs_replay_untouched (ts : list transaction) (bus : SMBus) (a c : Z) :
  forallb (fun t => negb (touches a c t)) ts = true ->
  regs (replay_all ts bus) a c = regs bus a c.
Proof.
  revert bus. induction ts as [|t ts IH]; intros bus H; simpl in *.
  - reflexivity.
  - apply andb_prop in H as [Ht Hts].
    rewrite IH by exact Hts.
    destruct t as [a' c'|a' c' v|]; simpl in *; try reflexivity.
    apply negb_true_iff in Ht. rewrite Ht. reflexivity.
Qed.

Lemma table_writes_untouched (value : list (Z * Z)) (k : nat) (a c : Z) :
  (k + length value <= 8)%nat ->
  a <> I2CADDRESS \/ c < 0x50 + 2 * Z.of_nat k
    \/ 0x50 + 2 * Z.of_nat (k + length value) <= c ->
  forallb (fun t => negb (touches a c t)) (table_writes k value) = true.
Proof.
  revert k. induction value as [|p rest IH]; intros k Hlen Hout;
    cbn [table_writes slot_writes app forallb touches length] in *.
  - reflexivity.
  - rewrite !u8_small by lia.
    rewrite IH by lia.
    assert (E : (a =? I2CADDRESS) && (c =? 0x50 + 2 * Z.of_nat k) = false
                /\ (a =? I2CADDRESS) && (c =? 0x51 + 2 * Z.of_nat k) = false).
    { destruct (a =? I2CADDRESS) eqn:Ea; cbn [andb]; [|tauto].
      apply Z.eqb_eq in Ea. split; apply Z.eqb_neq; lia. }
    destruct E as [-> ->]. reflexivity.
Qed.

(** After the writes for slots [k], [k+1], ..., slot [k+i] holds the [i]-th
    pair, cut to a byte. *)
Lemma table_writes_hit (value : list (Z * Z)) (k i : nat) (p : Z * Z) (bus : SMBus) :
  (k + length value <= 8)%nat ->
  nth_error value i = Some p ->
  let bus' := replay_all (table_writes k value) bus in
  byte_at bus' I2CADDRESS (0x50 + 2 * Z.of_nat (k + i)) = u8 (fst p)
  /\ byte_at bus' I2CADDRESS (0x51 + 2 * Z.of_nat (k + i)) = u8 (snd p).
Proof.
  revert k i bus. induction value as [|q rest IH]; intros k i bus Hlen Hp.
  - destruct i; discriminate.
  - cbn [length] in Hlen. destruct i as [|i].
    + injection Hp as ->. cbn zeta. unfold byte_at.
      cbn [table_writes]. rewrite replay_all_app, Nat.add_0_r.
      assert (Hne : (0x50 + 2 * Z.of_nat k =? 0x51 + 2 * Z.of_nat k) = false)
        by (apply Z.eqb_neq; lia).
      split.
      * rewrite (u8_small (0x50 + 2 * Z.of_nat k)) by lia.
        rewrite regs_replay_untouched by (apply table_writes_untouched; lia).
        cbn [slot_writes replay_all fold_left replay write_byte_data snd
             store log regs fst].
        rewrite (u8_small (0x50 + 2 * Z.of_nat k)) by lia.
        rewrite (u8_small (0x51 + 2 * Z.of_nat k)) by lia.
        rewrite !Z.eqb_refl, Hne. cbn [andb]. apply u8_idem.
      * rewrite (u8_small (0x51 + 2 * Z.of_nat k)) by lia.
        rewrite regs_replay_untouched by (apply table_writes_untouched; lia).
        cbn [slot_writes replay_all fold_left replay write_byte_data snd
             store log regs fst].
        rewrite (u8_small (0x51 + 2 * Z.of_nat k)) by lia.
        rewrite !Z.eqb_refl. cbn [andb]. apply u8_idem.
    + cbn [nth_error] in Hp. cbn zeta. cbn [table_writes]. rewrite replay_all_app.
      replace (k + S i)%nat with (S k + i)%nat by lia.
      apply IH; [lia | exact Hp].
Qed.

(** ** The lookup-table getter *)

Lemma getter_reads (bus : SMBus) :
  fanControlLookupTable bus
  = (Ok (map (fun i => let t := byte_at bus I2CADDRESS (0x50 + 2 * Z.of_nat i) in (t, t))
             (seq 0 8)),
     replay_all table_reads bus).
Proof. reflexivity. Qed.

(** ** What a computation may put in the journal *)

Section Issues.

Variable P : transaction -> Prop.

Lemma issues_ret {A : Type} (a : A) : issues P (ret a).
Proof. intros bus. exists []. simpl. rewrite app_nil_r. auto. Qed.

Lemma issues_lift {A : Type} (r : result A) : issues P (lift r).
Proof. intros bus. exists []. simpl. rewrite app_nil_r. auto. Qed.

Lemma issues_bind {A B : Type} (m : M A) (f : A -> M B) :
  issues P m -> (forall a, issues P (f a)) -> issues P (bind m f).
Proof.
  intros Hm Hf bus. unfold bind.
  destruct (Hm bus) as [n1 [E1 F1]].
  destruct (m bus) as [[a|e] bus1]; simpl in E1.
  - destruct (Hf a bus1) as [n2 [E2 F2]].
    exists (n1 ++ n2). rewrite E2, E1, app_assoc. split; [reflexivity|].
    apply Forall_app. auto.
  - exists n1. auto.
Qed.

Lemma issues_for_each (idxs : list Z) (body : Z -> M unit) :
  (forall i, issues P (body i)) -> issues P (for_each idxs body).
Proof.
  intros Hb. induction idxs as [|i rest IH]; cbn [for_each].
  - apply issues_ret.
  - apply issues_bind; auto.
Qed.

Lemma issues_comprehension {A : Type} (idxs : list Z) (item : Z -> M A) :
  (forall i, issues P (item i)) -> issues P (comprehension idxs item).
Proof.
  intros Hb. induction idxs as [|i rest IH]; cbn [comprehension].
  - apply issues_ret.
  - apply issues_bind; [auto|]. intros a.
    apply issues_bind; [auto|]. intros l. apply issues_ret.
Qed.

Lemma issues_read (addr cmd : Z) :
  P (ReadByteData addr cmd) -> issues P (read_byte_data addr cmd).
Proof. intros H bus. exists [ReadByteData addr cmd]. simpl. auto. Qed.

Lemma issues_write (addr cmd val : Z) :
  P (WriteByteData addr cmd val) -> issues P (write_byte_data addr cmd val).
Proof. intros H bus. exists [WriteByteData addr cmd val]. simpl. auto. Qed.

Lemma issues_close : P Close -> issues P bus_close.
Proof. intros H bus. exists [Close]. simpl. auto. Qed.

End Issues.

(** ** Internal temperature *)

(** C7: the internal-temperature getter makes exactly one call on the bus, a
    read of register 0x00 of the chip, and returns the byte that read
    delivered, as it is. *)
Theorem internalTemp_single_read (bus : SMBus) :
  INTERNAL_TEMP = 0x00
  /\ internalTemp bus = read_byte_data I2CADDRESS 0x00 bus
  /\ fst (internalTemp bus) = Ok (byte_at bus I2CADDRESS 0x00)
  /\ journal (snd (internalTemp bus))
     = journal bus ++ [ReadByteData I2CADDRESS 0x00]
  /\ regs (snd (internalTemp bus)) = regs bus.
Proof. repeat split. Qed.

(** ** The device address *)

Lemma issues_read_chip (r : Z) : issues (addresses_only I2CADDRESS) (_read r).
Proof. apply issues_read. reflexivity. Qed.

Lemma issues_write_chip (r d : Z) : issues (addresses_only I2CADDRESS) (_write r d).
Proof. apply issues_write. reflexivity. Qed.

Lemma issues_writeBool_chip (r m : Z) (v : bool) :
  issues (addresses_only I2CADDRESS) (_writeBool r m v).
Proof.
  apply issues_bind; [apply issues_read_chip|].
  intros reg. destruct v; apply issues_write_chip.
Qed.

Lemma issues_getter_chip : issues (addresses_only I2CADDRESS) fanControlLookupTable.
Proof.
  apply issues_comprehension. intros i.
  apply issues_bind; [apply issues_lift|]. intros rt.
  apply issues_bind; [apply issues_read_chip|]. intros t.
  apply issues_bind; [apply issues_lift|]. intros rt'.
  apply issues_bind; [apply issues_read_chip|]. intros s.
  apply issues_ret.
Qed.

Lemma issues_setter_chip (value : list (Z * Z)) :
  issues (addresses_only I2CADDRESS) (fanControlLookupTable_setter value).
Proof.
  apply issues_for_each. intros i.
  apply issues_bind; [apply issues_lift|]. intros [x y].
  apply issues_bind; [apply issues_lift|]. intros rt.
  apply issues_bind; [apply issues_write_chip|]. intros _.
  apply issues_bind; [apply issues_lift|]. intros rs.
  apply issues_write_chip.
Qed.

(** C8: whatever operation of the handle runs, on whatever bus, every read
    and every write it issues addresses device 0x4C. *)
Theorem every_transaction_addresses_chip (op : operation) (bus : SMBus) :
  I2CADDRESS = 0x4C
  /\ exists new,
       journal (bus_after op bus) = journal bus ++ new
       /\ Forall (addresses_only 0x4C) new.
Proof.
  split; [reflexivity|]. change 0x4C with I2CADDRESS.
  destruct op; cbn [bus_after].
  - apply issues_read_chip.
  - apply issues_write_chip.
  - apply issues_writeBool_chip.
  - apply issues_close. exact I.
  - apply issues_read_chip.
  - apply issues_bind; [apply issues_read_chip|]. intros reg. apply issues_ret.
  - apply issues_writeBool_chip.
  - apply issues_getter_chip.
  - apply issues_setter_chip.
Qed.

(** ** The lookup-table setter *)

(** C4: given at most 8 pairs, the setter returns after writing the pairs in
    index order, pair [i]'s temperature to register 0x50 + 2*i and its speed
    to register 0x51 + 2*i; these are the registers 0x50, 0x52, ..., 0x5E and
    0x51, 0x53, ..., 0x5F. *)
Theorem setter_writes_slots_in_order (value : list (Z * Z)) (bus : SMBus) :
  (length value <= 8)%nat ->
  fst (fanControlLookupTable_setter value bus) = Ok tt
  /\ journal (snd (fanControlLookupTable_setter value bus))
     = journal bus ++ table_writes 0 value
  /\ range_iter REG_LOOKUP_T = [0x50; 0x52; 0x54; 0x56; 0x58; 0x5A; 0x5C; 0x5E]
  /\ range_iter REG_LOOKUP_S = [0x51; 0x53; 0x55; 0x57; 0x59; 0x5B; 0x5D; 0x5F].
Proof.
  intros Hlen. rewrite setter_within_table by exact Hlen. cbn [fst snd].
  rewrite journal_replay_all. repeat split.
Qed.

Lemma setter_writes_slots_in_order_witness :
  fst (fanControlLookupTable_setter [(20, 10); (30, 20); (40, 30)]
         (fresh_bus (fun _ _ => 0))) = Ok tt
  /\ journal (snd (fanControlLookupTable_setter [(20, 10); (30, 20); (40, 30)]
                     (fresh_bus (fun _ _ => 0))))
     = [ WriteByteData 0x4C 0x50 20; WriteByteData 0x4C 0x51 10;
         WriteByteData 0x4C 0x52 30; WriteByteData 0x4C 0x53 20;
         WriteByteData 0x4C 0x54 40; WriteByteData 0x4C 0x55 30 ].
Proof.
  destruct (setter_writes_slots_in_order [(20, 10); (30, 20); (40, 30)]
              (fresh_bus (fun _ _ => 0))) as [H1 [H2 _]].
  - cbn. lia.
  - split; [exact H1 | exact H2].
Defined.

(** C9: given more than 8 pairs, the setter raises [IndexError], at the
    subscript [REG_LOOKUP_T[8]] of the ninth turn; by then the writes of the
    first 8 pairs, and no others, have been made, and the sixteen registers
    hold those pairs. *)
Theorem setter_oversized_fails_after_eight (value : list (Z * Z)) (bus : SMBus) :
  (8 < length value)%nat ->
  range_getitem REG_LOOKUP_T 8 = Raise IndexError
  /\ fst (fanControlLookupTable_setter value bus) = Raise IndexError
  /\ journal (snd (fanControlLookupTable_setter value bus))
     = journal bus ++ table_writes 0 (firstn 8 value)
  /\ forall (i : nat) (p : Z * Z),
       (i < 8)%nat -> nth_error value i = Some p ->
       byte_at (snd (fanControlLookupTable_setter value bus))
               I2CADDRESS (0x50 + 2 * Z.of_nat i) = u8 (fst p)
       /\ byte_at (snd (fanControlLookupTable_setter value bus))
                  I2CADDRESS (0x51 + 2 * Z.of_nat i) = u8 (snd p).
Proof.
  intros Hlen. rewrite setter_past_table by exact Hlen. cbn [fst snd].
  rewrite journal_replay_all. repeat split.
  - apply (table_writes_hit (firstn 8 value) 0 i p bus).
    + rewrite length_firstn. lia.
    + rewrite nth_error_firstn.
      destruct (i <? 8)%nat eqn:E; [assumption|apply Nat.ltb_ge in E; lia].
  - apply (table_writes_hit (firstn 8 value) 0 i p bus).
    + rewrite length_firstn. lia.
    + rewrite nth_error_firstn.
      destruct (i <? 8)%nat eqn:E; [assumption|apply Nat.ltb_ge in E; lia].
Qed.

Lemma setter_oversized_fails_after_eight_witness :
  fst (fanControlLookupTable_setter
         [(1, 1); (2, 2); (3, 3); (4, 4); (5, 5); (6, 6); (7, 7); (8, 8); (9, 9)]
         (fresh_bus (fun _ _ => 0))) = Raise IndexError
  /\ length (journal (snd (fanControlLookupTable_setter
         [(1, 1); (2, 2); (3, 3); (4, 4); (5, 5); (6, 6); (7, 7); (8, 8); (9, 9)]
         (fresh_bus (fun _ _ => 0))))) = 16%nat
  /\ byte_at (snd (fanControlLookupTable_setter
         [(1, 1); (2, 2); (3, 3); (4, 4); (5, 5); (6, 6); (7, 7); (8, 8); (9, 9)]
         (fresh_bus (fun _ _ => 0)))) I2CADDRESS 0x5E = 8.
Proof.
  destruct (setter_oversized_fails_after_eight
              [(1, 1); (2, 2); (3, 3); (4, 4); (5, 5); (6, 6); (7, 7); (8, 8); (9, 9)]
              (fresh_bus (fun _ _ => 0))) as [_ [H1 [H2 H3]]].
  - cbn. lia.
  - split; [exact H1|]. split.
    + rewrite H2. reflexivity.
    + apply (H3 7%nat (8, 8)); [lia | reflexivity].
Defined.

Lemma table_writes_In (value : list (Z * Z)) (k : nat) (t : transaction) :
  In t (table_writes k value) ->
  exists (i : nat) (p : Z * Z),
    nth_error value i = Some p /\ In t (slot_writes (k + i) p).
Proof.
  revert k. induction value as [|q rest IH]; intros k H; cbn [table_writes] in H.
  - destruct H.
  - apply in_app_or in H as [H|H].
    + exists 0%nat, q. rewrite Nat.add_0_r. split; [reflexivity | exact H].
    + destruct (IH (S k) H) as [i [p [Hp Hin]]].
      exists (S i), p. replace (k + S i)%nat with (S k + i)%nat by lia.
      split; assumption.
Qed.

Lemma table_writes_split (value : list (Z * Z)) (k i : nat) (p : Z * Z) :
  nth_error value i = Some p ->
  table_writes k value
  = table_writes k (firstn i value) ++ slot_writes (k + i) p
      ++ table_writes (S (k + i)) (skipn (S i) value).
Proof.
  revert k i. induction value as [|q rest IH]; intros k i Hp.
  - destruct i; discriminate.
  - destruct i as [|i]; cbn [nth_error] in Hp.
    + injection Hp as ->. rewrite Nat.add_0_r. reflexivity.
    + cbn [firstn skipn table_writes]. rewrite (IH (S k) i Hp).
      replace (S k + i)%nat with (k + S i)%nat by lia.
      rewrite <- app_assoc. reflexivity.
Qed.

(** C5: given fewer than 8 pairs, the setter returns having issued only
    writes to the registers of the slots it was given, and the temperature
    and speed registers of every later slot hold what they held before. *)
Theorem setter_short_table_keeps_rest (value : list (Z * Z)) (bus : SMBus) :
  (length value < 8)%nat ->
  fst (fanControlLookupTable_setter value bus) = Ok tt
  /\ (exists new,
        journal (snd (fanControlLookupTable_setter value bus)) = journal bus ++ new
        /\ Forall (fun t => exists (i : nat) (x : Z),
                     (i < length value)%nat
                     /\ (t = WriteByteData I2CADDRESS (0x50 + 2 * Z.of_nat i) x
                         \/ t = WriteByteData I2CADDRESS (0x51 + 2 * Z.of_nat i) x))
                  new)
  /\ forall j : nat,
       (length value <= j < 8)%nat ->
       byte_at (snd (fanControlLookupTable_setter value bus))
               I2CADDRESS (0x50 + 2 * Z.of_nat j)
       = byte_at bus I2CADDRESS (0x50 + 2 * Z.of_nat j)
       /\ byte_at (snd (fanControlLookupTable_setter value bus))
                  I2CADDRESS (0x51 + 2 * Z.of_nat j)
          = byte_at bus I2CADDRESS (0x51 + 2 * Z.of_nat j).
Proof.
  intros Hlen. rewrite setter_within_table by lia. cbn [fst snd].
  split; [reflexivity|]. split.
  - exists (table_writes 0 value). split; [apply journal_replay_all|].
    apply Forall_forall. intros t Ht.
    destruct (table_writes_In _ _ _ Ht) as [i [[x y] [Hp Hin]]].
    assert (i < length value)%nat by (apply nth_error_Some; congruence).
    cbn [slot_writes In Nat.add fst snd] in Hin.
    destruct Hin as [<-|[<-|[]]].
    + exists i, x. auto.
    + exists i, y. auto.
  - intros j Hj. unfold byte_at.
    rewrite (u8_small (0x50 + 2 * Z.of_nat j)) by lia.
    rewrite (u8_small (0x51 + 2 * Z.of_nat j)) by lia.
    rewrite !regs_replay_untouched by (apply table_writes_untouched; lia).
    split; reflexivity.
Qed.

Lemma setter_short_table_keeps_rest_witness :
  fst (fanControlLookupTable_setter [(20, 10)] (fresh_bus (fun _ c => c))) = Ok tt
  /\ byte_at (snd (fanControlLookupTable_setter [(20, 10)] (fresh_bus (fun _ c => c))))
             I2CADDRESS 0x50 = 20
  /\ byte_at (snd (fanControlLookupTable_setter [(20, 10)] (fresh_bus (fun _ c => c))))
             I2CADDRESS 0x52 = 0x52
  /\ byte_at (snd (fanControlLookupTable_setter [(20, 10)] (fresh_bus (fun _ c => c))))
             I2CADDRESS 0x5F = 0x5F.
Proof.
  assert (Hlen : (length [(20, 10)] < 8)%nat) by (cbn; lia).
  destruct (setter_short_table_keeps_rest [(20, 10)] (fresh_bus (fun _ c => c)) Hlen)
    as [H1 [_ H3]].
  split; [exact H1|]. split; [reflexivity|]. split.
  - destruct (H3 1%nat) as [Ht _]; [cbn; lia|]. exact Ht.
  - destruct (H3 7%nat) as [_ Hs]; [cbn; lia|]. exact Hs.
Defined.

Lemma setter_outcome (value : list (Z * Z)) (bus : SMBus) :
  fanControlLookupTable_setter value bus
  = (if (length value <=? 8)%nat then Ok tt else Raise IndexError,
     replay_all (table_writes 0 (firstn 8 value)) bus).
Proof.
  destruct (Nat.leb_spec (length value) 8) as [Hle|Hgt].
  - rewrite setter_within_table, firstn_all2 by exact Hle. reflexivity.
  - apply setter_past_table. exact Hgt.
Qed.

(** C10, as the code has it: the setter neither checks nor alters the
    components it is given.  A pair among the first 8 with a temperature
    above 0x7F or a speed above 0x3F is written like any other: the two
    writes for its slot carry the very values supplied, and whether the
    setter returns or raises is decided by the length of the list alone (it
    raises [IndexError] from the ninth pair on), never by a value.  The
    components are integers the bus library takes. *)
Theorem setter_passes_first_eight_unchanged
    (value : list (Z * Z)) (bus : SMBus) (i : nat) (x y : Z) :
  c_int_pairs (firstn 8 value) ->
  (i < 8)%nat ->
  nth_error value i = Some (x, y) ->
  MAX_LUT_TEMP < x \/ MAX_LUT_SPEED < y ->
  fst (fanControlLookupTable_setter value bus)
  = (if (length value <=? 8)%nat then Ok tt else Raise IndexError)
  /\ journal (snd (fanControlLookupTable_setter value bus))
     = journal bus
         ++ table_writes 0 (firstn i value)
         ++ [ WriteByteData I2CADDRESS (0x50 + 2 * Z.of_nat i) x;
              WriteByteData I2CADDRESS (0x51 + 2 * Z.of_nat i) y ]
         ++ table_writes (S i) (skipn (S i) (firstn 8 value)).
Proof.
  intros _ Hi Hp _. rewrite setter_outcome. cbn [fst snd].
  split; [reflexivity|].
  assert (Hp8 : nth_error (firstn 8 value) i = Some (x, y)).
  { rewrite nth_error_firstn.
    destruct (i <? 8)%nat eqn:E; [exact Hp|apply Nat.ltb_ge in E; lia]. }
  rewrite journal_replay_all, (table_writes_split _ 0 i (x, y) Hp8).
  rewrite firstn_firstn, Nat.min_l by lia.
  reflexivity.
Qed.

Lemma setter_passes_first_eight_unchanged_witness :
  fst (fanControlLookupTable_setter [(20, 10); (200, 100)] (fresh_bus (fun _ _ => 0)))
  = Ok tt
  /\ journal (snd (fanControlLookupTable_setter [(20, 10); (200, 100)]
                     (fresh_bus (fun _ _ => 0))))
     = [ WriteByteData 0x4C 0x50 20; WriteByteData 0x4C 0x51 10;
         WriteByteData 0x4C 0x52 200; WriteByteData 0x4C 0x53 100 ].
Proof.
  apply (setter_passes_first_eight_unchanged
           [(20, 10); (200, 100)] (fresh_bus (fun _ _ => 0)) 1 200 100).
  - repeat constructor; cbn; lia.
  - lia.
  - reflexivity.
  - left. unfold MAX_LUT_TEMP. lia.
Defined.

(** C10, as the claim has it, fails from the ninth pair on: given eight pairs
    within the field widths and a ninth with temperature 200 and speed 100,
    the setter raises [IndexError] and no write carries 200 or 100. *)
Lemma setter_never_writes_ninth_pair :
  nth_error [(1, 1); (2, 2); (3, 3); (4, 4); (5, 5); (6, 6); (7, 7); (8, 8); (200, 100)] 8
  = Some (200, 100)
  /\ MAX_LUT_TEMP < 200
  /\ MAX_LUT_SPEED < 100
  /\ fst (fanControlLookupTable_setter
            [(1, 1); (2, 2); (3, 3); (4, 4); (5, 5); (6, 6); (7, 7); (8, 8); (200, 100)]
            (fresh_bus (fun _ _ => 0)))
     = Raise IndexError
  /\ forall a c : Z,
       ~ In (WriteByteData a c 200)
            (journal (snd (fanControlLookupTable_setter
               [(1, 1); (2, 2); (3, 3); (4, 4); (5, 5); (6, 6); (7, 7); (8, 8); (200, 100)]
               (fresh_bus (fun _ _ => 0)))))
       /\ ~ In (WriteByteData a c 100)
              (journal (snd (fanControlLookupTable_setter
                 [(1, 1); (2, 2); (3, 3); (4, 4); (5, 5); (6, 6); (7, 7); (8, 8); (200, 100)]
                 (fresh_bus (fun _ _ => 0))))).
Proof.
  split; [reflexivity|]. split; [reflexivity|]. split; [reflexivity|].
  split; [reflexivity|].
  intros a c. rewrite setter_outcome. cbn [snd].
  rewrite journal_replay_all. cbn [fresh_bus journal app firstn table_writes slot_writes fst snd].
  split; intros H; cbn [In] in H;
    repeat (destruct H as [H|H]; [discriminate H|]); exact H.
Qed.

(** ** Reading the lookup table back *)

Lemma readback_pairs_temperature_with_itself
    (value : list (Z * Z)) (bus : SMBus) (i : nat) (t s : Z) :
  (length value <= 8)%nat ->
  nth_error value i = Some (t, s) ->
  exists table bus',
    (fanControlLookupTable_setter value ;;; fanControlLookupTable) bus
    = (Ok table, bus')
    /\ nth_error table i = Some (u8 t, u8 t).
Proof.
  intros Hlen Hp. unfold bind.
  rewrite setter_within_table by exact Hlen. rewrite getter_reads.
  eexists. eexists. split; [reflexivity|].
  assert (Hi : (i < length value)%nat) by (apply nth_error_Some; congruence).
  rewrite nth_error_map, nth_error_seq.
  replace (i <? 8)%nat with true by (symmetry; apply Nat.ltb_lt; lia).
  cbn [option_map Nat.add].
  destruct (table_writes_hit value 0 i (t, s) bus Hlen Hp) as [Ht _].
  cbn [Nat.add fst] in Ht. rewrite Ht. reflexivity.
Qed.

(** C1, as the code has it: a pair (t, s) within the field widths, written to
    a slot through the setter, is read back through the getter as (t, t); the
    getter reads the temperature register of the slot for both components,
    so the pair written comes back only when s = t. *)
Theorem lut_readback_returns_temperature_for_speed
    (value : list (Z * Z)) (bus : SMBus) (i : nat) (t s : Z) :
  (length value <= 8)%nat ->
  nth_error value i = Some (t, s) ->
  0 <= t <= MAX_LUT_TEMP ->
  0 <= s <= MAX_LUT_SPEED ->
  exists table,
    fst ((fanControlLookupTable_setter value ;;; fanControlLookupTable) bus)
    = Ok table
    /\ nth_error table i = Some (t, t)
    /\ (s <> t -> nth_error table i <> Some (t, s)).
Proof.
  intros Hlen Hp Ht Hs.
  destruct (readback_pairs_temperature_with_itself value bus i t s Hlen Hp)
    as [table [bus' [Hrun Hnth]]].
  unfold MAX_LUT_TEMP in Ht. rewrite u8_small in Hnth by lia.
  exists table. rewrite Hrun. split; [reflexivity|]. split; [exact Hnth|].
  intros Hne Heq. rewrite Hnth in Heq. injection Heq as Heq. congruence.
Qed.

Lemma lut_readback_returns_temperature_for_speed_witness :
  fst ((fanControlLookupTable_setter
          [(20, 10); (30, 20); (40, 30); (50, 40); (60, 50); (70, 60); (75, 63); (80, 63)] ;;;
        fanControlLookupTable) (fresh_bus (fun _ _ => 0)))
  = Ok [(20, 20); (30, 30); (40, 40); (50, 50); (60, 60); (70, 70); (75, 75); (80, 80)]
  /\ exists table,
       fst ((fanControlLookupTable_setter
               [(20, 10); (30, 20); (40, 30); (50, 40); (60, 50); (70, 60); (75, 63); (80, 63)] ;;;
             fanControlLookupTable) (fresh_bus (fun _ _ => 0)))
       = Ok table
       /\ nth_error table 0 = Some (20, 20)
       /\ (10 <> 20 -> nth_error table 0 <> Some (20, 10)).
Proof.
  split; [reflexivity|].
  apply (lut_readback_returns_temperature_for_speed
           [(20, 10); (30, 20); (40, 30); (50, 40); (60, 50); (70, 60); (75, 63); (80, 63)]
           (fresh_bus (fun _ _ => 0)) 0 20 10).
  - cbn. lia.
  - reflexivity.
  - unfold MAX_LUT_TEMP. lia.
  - unfold MAX_LUT_SPEED. lia.
Defined.

(** ** Bits of a register byte *)

Lemma u8_testbit (v k : Z) : Z.testbit (u8 v) k = (k <? 8) && Z.testbit v k.
Proof. unfold u8. change 256 with (2 ^ 8). apply Z.testbit_mod_pow2. lia. Qed.

Lemma u8_lor (a m : Z) : 0 <= m < 256 -> u8 (Z.lor (u8 a) m) = Z.lor (u8 a) m.
Proof.
  intros Hm. apply Z.bits_inj'. intros k _.
  rewrite u8_testbit, !Z.lor_spec, <- (u8_small m Hm), !u8_testbit.
  destruct (k <? 8); reflexivity.
Qed.

Lemma u8_land (a m : Z) : u8 (Z.land (u8 a) m) = Z.land (u8 a) m.
Proof.
  apply Z.bits_inj'. intros k _.
  rewrite u8_testbit, !Z.land_spec, !u8_testbit.
  destruct (k <? 8); reflexivity.
Qed.

Lemma nonzero_land_testbit (reg j : Z) :
  0 <= j -> negb (Z.land reg (2 ^ j) =? 0) = Z.testbit reg j.
Proof.
  intros Hj. destruct (Z.testbit reg j) eqn:E.
  - apply negb_true_iff, Z.eqb_neq. intros H0.
    assert (Hb : Z.testbit (Z.land reg (2 ^ j)) j = true)
      by (rewrite Z.land_spec, E, Z.pow2_bits_eqb, Z.eqb_refl by lia; reflexivity).
    rewrite H0, Z.bits_0 in Hb. discriminate.
  - apply negb_false_iff, Z.eqb_eq. apply Z.bits_inj'. intros k _.
    rewrite Z.land_spec, Z.bits_0, Z.pow2_bits_eqb by lia.
    destruct (j =? k) eqn:Ejk.
    + apply Z.eqb_eq in Ejk. subst k. rewrite E. reflexivity.
    + apply andb_false_r.
Qed.

Lemma config_flag_is_bit (F : Z) :
  In F CONFIG_FLAGS -> exists j, 0 <= j < 8 /\ F = 2 ^ j.
Proof.
  intros H. cbn [CONFIG_FLAGS In] in H.
  destruct H as [<-|[<-|[<-|[<-|[<-|[<-|[<-|[<-|[]]]]]]]]];
    [exists 7|exists 6|exists 5|exists 4|exists 3|exists 2|exists 1|exists 0];
    (split; [lia|reflexivity]).
Qed.

(** ** The read-modify-write of a flag *)

Lemma writeBool_byte (r m : Z) (v : bool) (bus : SMBus) :
  fst (_writeBool r m v bus) = Ok tt
  /\ byte_at (snd (_writeBool r m v bus)) I2CADDRESS r
     = u8 (if v then Z.lor (byte_at bus I2CADDRESS r) m
           else Z.land (byte_at bus I2CADDRESS r) (Z.lnot m)).
Proof.
  destruct v;
    (split; [reflexivity|]);
    unfold byte_at;
    cbn [_writeBool _read _write bind read_byte_data write_byte_data
         snd log store regs];
    rewrite !Z.eqb_refl; cbn [andb]; apply u8_idem.
Qed.

Lemma set_flag_true (F : Z) (bus : SMBus) :
  0 <= F < 256 -> config_byte (set_flag F true bus) = Z.lor (config_byte bus) F.
Proof.
  intros HF. unfold config_byte, set_flag.
  destruct (writeBool_byte REG_CONFIG F true bus) as [_ ->].
  unfold byte_at. apply u8_lor. exact HF.
Qed.

Lemma set_flag_false (F : Z) (bus : SMBus) :
  config_byte (set_flag F false bus) = Z.land (config_byte bus) (Z.lnot F).
Proof.
  unfold config_byte, set_flag.
  destruct (writeBool_byte REG_CONFIG F false bus) as [_ ->].
  unfold byte_at. apply u8_land.
Qed.

Lemma set_flag_testbit (j : Z) (v : bool) (bus : SMBus) (k : Z) :
  0 <= j < 8 -> 0 <= k ->
  Z.testbit (config_byte (set_flag (2 ^ j) v bus)) k
  = if j =? k then v else Z.testbit (config_byte bus) k.
Proof.
  intros Hj Hk.
  assert (0 <= 2 ^ j < 256).
  { split; [apply Z.pow_nonneg; lia|].
    change 256 with (2 ^ 8). apply Z.pow_lt_mono_r; lia. }
  destruct v.
  - rewrite set_flag_true by assumption.
    rewrite Z.lor_spec, Z.pow2_bits_eqb by lia.
    destruct (j =? k); [apply orb_true_r | apply orb_false_r].
  - rewrite set_flag_false.
    rewrite Z.land_spec, Z.lnot_spec, Z.pow2_bits_eqb by lia.
    destruct (j =? k); [apply andb_false_r | apply andb_true_r].
Qed.

(** ** Configuration flags *)

(** C2, as the code has it: a flag write sets (OR with the mask) or clears
    (AND with the complement of the mask) the bit of its flag and leaves the
    other seven bits of the configuration byte as they were; setting a flag
    and then clearing it yields the original byte with that flag cleared,
    which is the original byte when the flag was clear to begin with. *)
Theorem flag_write_changes_only_its_bit (F : Z) (bus : SMBus) :
  In F CONFIG_FLAGS ->
  config_byte (set_flag F true bus) = Z.lor (config_byte bus) F
  /\ config_byte (set_flag F false bus) = Z.land (config_byte bus) (Z.lnot F)
  /\ (forall (v : bool) (k : Z), 0 <= k -> 2 ^ k <> F ->
        Z.testbit (config_byte (set_flag F v bus)) k
        = Z.testbit (config_byte bus) k)
  /\ config_byte (set_flag F false (set_flag F true bus))
     = Z.land (config_byte bus) (Z.lnot F)
  /\ (Z.land (config_byte bus) F = 0 ->
        config_byte (set_flag F false (set_flag F true bus)) = config_byte bus).
Proof.
  intros HF. destruct (config_flag_is_bit F HF) as [j [Hj ->]].
  assert (Hm : 0 <= 2 ^ j < 256).
  { split; [apply Z.pow_nonneg; lia|].
    change 256 with (2 ^ 8). apply Z.pow_lt_mono_r; lia. }
  assert (Hround : config_byte (set_flag (2 ^ j) false (set_flag (2 ^ j) true bus))
                   = Z.land (config_byte bus) (Z.lnot (2 ^ j))).
  { rewrite set_flag_false, set_flag_true by exact Hm.
    apply Z.bits_inj'. intros k Hk.
    rewrite !Z.land_spec, Z.lor_spec, Z.lnot_spec by exact Hk.
    destruct (Z.testbit (config_byte bus) k), (Z.testbit (2 ^ j) k); reflexivity. }
  split; [apply set_flag_true; exact Hm|].
  split; [apply set_flag_false|].
  split; [|split; [exact Hround|]].
  - intros v k Hk Hne. rewrite set_flag_testbit by lia.
    destruct (j =? k) eqn:E; [|reflexivity].
    apply Z.eqb_eq in E. subst k. contradiction.
  - intros Hclear. rewrite Hround.
    apply Z.bits_inj'. intros k Hk.
    assert (Hb : Z.testbit (Z.land (config_byte bus) (2 ^ j)) k = false)
      by (rewrite Hclear; apply Z.bits_0).
    rewrite Z.land_spec in Hb. rewrite Z.land_spec, Z.lnot_spec by exact Hk.
    destruct (Z.testbit (config_byte bus) k), (Z.testbit (2 ^ j) k);
      try reflexivity; discriminate.
Qed.

Lemma flag_write_changes_only_its_bit_witness :
  In CONFIG_DAC CONFIG_FLAGS
  /\ config_byte (fresh_bus (fun _ _ => 0x45)) = 0x45
  /\ config_byte (set_flag CONFIG_DAC true (fresh_bus (fun _ _ => 0x45))) = 0x55
  /\ config_byte (set_flag CONFIG_DAC false
                    (set_flag CONFIG_DAC true (fresh_bus (fun _ _ => 0x45)))) = 0x45.
Proof.
  assert (HF : In CONFIG_DAC CONFIG_FLAGS) by (cbn; tauto).
  destruct (flag_write_changes_only_its_bit CONFIG_DAC
              (fresh_bus (fun _ _ => 0x45)) HF) as [H1 [_ [_ [_ H5]]]].
  split; [exact HF|]. split; [reflexivity|]. split.
  - rewrite H1. reflexivity.
  - rewrite H5; reflexivity.
Defined.

(** C2, as the claim has it, fails where the flag is set to begin with: with
    the configuration byte at 0x10, setting and then clearing the DAC flag
    leaves 0x00. *)
Lemma flag_round_trip_loses_set_flag :
  In CONFIG_DAC CONFIG_FLAGS
  /\ config_byte (fresh_bus (fun _ _ => 0x10)) = 0x10
  /\ config_byte (set_flag CONFIG_DAC false
                    (set_flag CONFIG_DAC true (fresh_bus (fun _ _ => 0x10)))) = 0x00
  /\ config_byte (set_flag CONFIG_DAC false
                    (set_flag CONFIG_DAC true (fresh_bus (fun _ _ => 0x10))))
     <> config_byte (fresh_bus (fun _ _ => 0x10)).
Proof.
  split; [cbn; tauto|]. split; [reflexivity|]. split; [reflexivity|].
  discriminate.
Qed.

(** ** DAC mode *)

(** C3: the getter reads the configuration register, 0x03, and returns
    whether its bit 0x10 (bit 4) is set; the setter returns with that bit
    equal to its argument (OR with 0x10, or AND with the complement of 0x10)
    and every other bit of the byte as it was. *)
Theorem dacMode_is_bit_0x10 (bus : SMBus) (value : bool) :
  REG_CONFIG = 0x03 /\ CONFIG_DAC = 0x10
  /\ fst (dacMode bus) = Ok (Z.testbit (byte_at bus I2CADDRESS 0x03) 4)
  /\ journal (snd (dacMode bus)) = journal bus ++ [ReadByteData I2CADDRESS 0x03]
  /\ fst (dacMode_setter value bus) = Ok tt
  /\ byte_at (snd (dacMode_setter value bus)) I2CADDRESS 0x03
     = (if value then Z.lor (byte_at bus I2CADDRESS 0x03) 0x10
        else Z.land (byte_at bus I2CADDRESS 0x03) (Z.lnot 0x10))
  /\ forall k : nat,
       Z.testbit (byte_at (snd (dacMode_setter value bus)) I2CADDRESS 0x03)
                 (Z.of_nat k)
       = if (k =? 4)%nat then value
         else Z.testbit (byte_at bus I2CADDRESS 0x03) (Z.of_nat k).
Proof.
  split; [reflexivity|]. split; [reflexivity|].
  split.
  { change (fst (dacMode bus))
      with (Ok (negb (Z.land (byte_at bus I2CADDRESS 0x03) (2 ^ 4) =? 0))).
    rewrite nonzero_land_testbit by lia. reflexivity. }
  split; [reflexivity|].
  split; [apply (writeBool_byte REG_CONFIG CONFIG_DAC value bus)|].
  change (byte_at (snd (dacMode_setter value bus)) I2CADDRESS 0x03)
    with (config_byte (set_flag CONFIG_DAC value bus)).
  change (byte_at bus I2CADDRESS 0x03) with (config_byte bus).
  split.
  - destruct value.
    + apply set_flag_true. unfold CONFIG_DAC. lia.
    + apply set_flag_false.
  - intros k. change CONFIG_DAC with (2 ^ 4).
    rewrite set_flag_testbit by lia.
    destruct (Nat.eqb_spec k 4) as [->|Hne]; [reflexivity|].
    replace (4 =? Z.of_nat k) with false by (symmetry; apply Z.eqb_neq; lia).
    reflexivity.
Qed.

(** ** External temperature *)

(** C6: the decoding reports an open-circuit fault for the raw value 0x3F8
    and for no other, a short-circuit fault for 0x3FF and for no other, and
    a scaled temperature for every other raw value; a numeric temperature is
    never the outcome for one of the two sentinels. *)
Theorem external_temperature_sentinels_decoded (T : Type) (scale : Z -> T) (value : Z) :
  (decode_external_temperature scale value = OpenCircuitFault <-> value = 0x3F8)
  /\ (decode_external_temperature scale value = ShortCircuitFault <-> value = 0x3FF)
  /\ (decode_external_temperature scale value = Temperature (scale value)
      <-> value <> 0x3F8 /\ value <> 0x3FF)
  /\ (forall t : T, decode_external_temperature scale value = Temperature t ->
        value <> 0x3F8 /\ value <> 0x3FF).
Proof.
  unfold decode_external_temperature, TEMP_FAULT_OPENCIRCUIT, TEMP_FAULT_SHORT.
  destruct (Z.eqb_spec value 0x3F8) as [->|Ho].
  - cbn. repeat split; try discriminate; try reflexivity; intros; try lia;
      try tauto.
  - destruct (Z.eqb_spec value 0x3FF) as [->|Hs].
    + cbn. repeat split; try discriminate; try reflexivity; intros; try lia;
        try tauto.
    + repeat split; try discriminate; try reflexivity; intros; try lia;
        try tauto.
Qed.

(** ** Which registers a computation may change *)

Section Confined.

Variable Q : Z -> Z -> Prop.

Lemma confined_ret {A : Type} (a : A) : confined Q (ret a).
Proof. intros bus a' c _. reflexivity. Qed.

Lemma confined_lift {A : Type} (r : result A) : confined Q (lift r).
Proof. intros bus a' c _. reflexivity. Qed.

Lemma confined_bind {A B : Type} (m : M A) (f : A -> M B) :
  confined Q m -> (forall a, confined Q (f a)) -> confined Q (bind m f).
Proof.
  intros Hm Hf bus a c Hq. unfold bind.
  specialize (Hm bus a c Hq).
  destruct (m bus) as [[x|e] bus1]; cbn [snd] in *.
  - rewrite (Hf x bus1 a c Hq). exact Hm.
  - exact Hm.
Qed.

(** A subscript is known to have succeeded where its value is used. *)
Lemma confined_bind_lift {A B : Type} (r : result A) (f : A -> M B) :
  (forall a, r = Ok a -> confined Q (f a)) -> confined Q (bind (lift r) f).
Proof.
  intros Hf bus a c Hq. unfold bind, lift.
  destruct r as [x|e]; [|reflexivity].
  apply (Hf x eq_refl bus a c Hq).
Qed.

Lemma confined_for_each (idxs : list Z) (body : Z -> M unit) :
  (forall i, confined Q (body i)) -> confined Q (for_each idxs body).
Proof.
  intros Hb. induction idxs as [|i rest IH]; cbn [for_each].
  - apply confined_ret.
  - apply confined_bind; auto.
Qed.

Lemma confined_comprehension {A : Type} (idxs : list Z) (item : Z -> M A) :
  (forall i, confined Q (item i)) -> confined Q (comprehension idxs item).
Proof.
  intros Hb. induction idxs as [|i rest IH]; cbn [comprehension].
  - apply confined_ret.
  - apply confined_bind; [auto|]. intros a.
    apply confined_bind; [auto|]. intros l. apply confined_ret.
Qed.

Lemma confined_read (addr cmd : Z) : confined Q (read_byte_data addr cmd).
Proof. intros bus a c _. reflexivity. Qed.

Lemma confined_close : confined Q bus_close.
Proof. intros bus a c _. reflexivity. Qed.

Lemma confined_write (addr cmd val : Z) :
  Q addr (u8 cmd) -> confined Q (write_byte_data addr cmd val).
Proof.
  intros Hq bus a c Hn. cbn [write_byte_data snd log store regs].
  destruct (a =? addr) eqn:Ea; [|reflexivity].
  destruct (c =? u8 cmd) eqn:Ec; [|reflexivity].
  apply Z.eqb_eq in Ea, Ec. subst. contradiction.
Qed.

End Confined.

Lemma subscript_bounds (n i j : Z) : subscript n i = Ok j -> 0 <= j < n.
Proof.
  unfold subscript. generalize (if i <? 0 then i + n else i). intros k.
  cbv zeta.
  destruct (k <? 0) eqn:E1; [discriminate|].
  destruct (n <=? k) eqn:E2; [discriminate|].
  cbn [orb]. intros H. injection H as <-.
  apply Z.ltb_ge in E1. apply Z.leb_gt in E2. lia.
Qed.

Lemma REG_LOOKUP_T_in_block (i r : Z) :
  range_getitem REG_LOOKUP_T i = Ok r -> 0x50 <= r <= 0x5E.
Proof.
  unfold range_getitem. change (range_len REG_LOOKUP_T) with 8.
  destruct (subscript 8 i) as [j|e] eqn:E; [|discriminate].
  apply subscript_bounds in E. intros H.
  assert (Hr : r = 0x50 + j * 2) by (injection H as <-; reflexivity). lia.
Qed.

Lemma REG_LOOKUP_S_in_block (i r : Z) :
  range_getitem REG_LOOKUP_S i = Ok r -> 0x51 <= r <= 0x5F.
Proof.
  unfold range_getitem. change (range_len REG_LOOKUP_S) with 8.
  destruct (subscript 8 i) as [j|e] eqn:E; [|discriminate].
  apply subscript_bounds in E. intros H.
  assert (Hr : r = 0x51 + j * 2) by (injection H as <-; reflexivity). lia.
Qed.

Lemma confined_writeBool (r m : Z) (v : bool) :
  confined (fun a c => a = I2CADDRESS /\ c = u8 r) (_writeBool r m v).
Proof.
  apply confined_bind; [apply confined_read|].
  intros reg. destruct v; apply confined_write; split; reflexivity.
Qed.

Lemma confined_getter : confined (fun _ _ => False) fanControlLookupTable.
Proof.
  apply confined_comprehension. intros i.
  apply confined_bind; [apply confined_lift|]. intros rt.
  apply confined_bind; [apply confined_read|]. intros t.
  apply confined_bind; [apply confined_lift|]. intros rt'.
  apply confined_bind; [apply confined_read|]. intros s.
  apply confined_ret.
Qed.

Lemma confined_setter (value : list (Z * Z)) :
  confined lut_block (fanControlLookupTable_setter value).
Proof.
  apply confined_for_each. intros i.
  apply confined_bind; [apply confined_lift|]. intros [x y].
  apply confined_bind_lift. intros rt Hrt.
  apply REG_LOOKUP_T_in_block in Hrt.
  apply confined_bind.
  { apply confined_write. split; [reflexivity|]. rewrite u8_small; lia. }
  intros _. apply confined_bind_lift. intros rs Hrs.
  apply REG_LOOKUP_S_in_block in Hrs.
  apply confined_write. split; [reflexivity|]. rewrite u8_small; lia.
Qed.

Lemma confined_weaken (Q Q' : Z -> Z -> Prop) {A : Type} (m : M A) :
  (forall a c, Q a c -> Q' a c) -> confined Q m -> confined Q' m.
Proof. intros Hqq Hm bus a c Hn. apply Hm. intros Hq. apply Hn, Hqq, Hq. Qed.

(** X1: no operation of the handle, whether it returns or raises, changes a
    register of a device other than the chip at [I2CADDRESS]. *)
Theorem operations_leave_other_devices_alone
    (op : operation) (bus : SMBus) (a c : Z) :
  a <> I2CADDRESS -> regs (bus_after op bus) a c = regs bus a c.
Proof.
  intros Ha. pose (Q := fun (a' _ : Z) => a' = I2CADDRESS).
  assert (Hn : ~ Q a c) by exact Ha.
  assert (HwB : forall r m v, confined Q (_writeBool r m v)).
  { intros r m v.
    apply (confined_weaken (fun a c => a = I2CADDRESS /\ c = u8 r));
      [intros a' c' H; apply H | apply confined_writeBool]. }
  destruct op; cbn [bus_after].
  - exact (confined_read Q _ _ bus a c Hn).
  - exact (confined_write Q _ _ _ eq_refl bus a c Hn).
  - exact (HwB _ _ _ bus a c Hn).
  - exact (confined_close Q bus a c Hn).
  - exact (confined_read Q _ _ bus a c Hn).
  - refine (confined_bind Q _ _ (confined_read Q _ _) _ bus a c Hn).
    intros reg. apply confined_ret.
  - exact (HwB _ _ _ bus a c Hn).
  - refine (confined_weaken (fun _ _ => False) Q _ _ confined_getter bus a c Hn).
    intros a' c' [].
  - refine (confined_weaken lut_block Q _ _ (confined_setter _) bus a c Hn).
    intros a' c' H. apply H.
Qed.

Lemma operations_leave_other_devices_alone_witness :
  regs (bus_after (OpSetLookupTable [(20, 10); (30, 20)]) (fresh_bus (fun a c => a + c)))
       0x4D 0x50
  = 0x4D + 0x50.
Proof.
  apply (operations_leave_other_devices_alone
           (OpSetLookupTable [(20, 10); (30, 20)]) (fresh_bus (fun a c => a + c))
           0x4D 0x50).
  unfold I2CADDRESS. lia.
Defined.

(** ** Operations that only query *)

(** X2: a raw register read, the internal-temperature and DAC-mode getters,
    the lookup-table getter and [close] change no register and issue no
    write. *)
Theorem read_only_operations_write_nothing (op : operation) (bus : SMBus) :
  read_only op = true ->
  (forall a c, regs (bus_after op bus) a c = regs bus a c)
  /\ exists new,
       journal (bus_after op bus) = journal bus ++ new
       /\ Forall (fun t => is_write t = false) new.
Proof.
  intros Hro.
  assert (Hn : forall a c : Z, ~ (fun _ _ : Z => False) a c) by (intros a c []).
  destruct op; try discriminate Hro; cbn [bus_after]; split.
  - intros a c. exact (confined_read _ _ _ bus a c (Hn a c)).
  - apply issues_read. reflexivity.
  - intros a c. exact (confined_close _ bus a c (Hn a c)).
  - apply issues_close. reflexivity.
  - intros a c. exact (confined_read _ _ _ bus a c (Hn a c)).
  - apply issues_read. reflexivity.
  - intros a c.
    refine (confined_bind _ _ _ (confined_read _ _ _) _ bus a c (Hn a c)).
    intros reg. apply confined_ret.
  - apply issues_bind; [apply issues_read; reflexivity|].
    intros reg. apply issues_ret.
  - intros a c. exact (confined_getter bus a c (Hn a c)).
  - rewrite getter_reads. cbn [snd]. exists table_reads.
    split; [apply journal_replay_all|].
    repeat constructor.
Qed.

Lemma read_only_operations_write_nothing_witness :
  regs (bus_after OpLookupTable (fresh_bus (fun _ c => c))) 0x4C 0x51 = 0x51
  /\ length (journal (bus_after OpLookupTable (fresh_bus (fun _ c => c)))) = 16%nat.
Proof.
  destruct (read_only_operations_write_nothing OpLookupTable
              (fresh_bus (fun _ c => c)) eq_refl) as [Hregs _].
  split; [rewrite Hregs; reflexivity | reflexivity].
Defined.

(** ** What the setters leave alone *)

(** X4: whatever list it is given, oversized or not, the lookup-table setter
    changes no register outside 0x50..0x5F of the chip; the DAC mode and the
    internal temperature read the same after it as before. *)
Theorem setter_changes_only_lookup_registers (value : list (Z * Z)) (bus : SMBus) :
  (forall a c, ~ lut_block a c ->
     regs (snd (fanControlLookupTable_setter value bus)) a c = regs bus a c)
  /\ fst (dacMode (snd (fanControlLookupTable_setter value bus))) = fst (dacMode bus)
  /\ fst (internalTemp (snd (fanControlLookupTable_setter value bus)))
     = fst (internalTemp bus).
Proof.
  assert (H : forall a c, ~ lut_block a c ->
            regs (snd (fanControlLookupTable_setter value bus)) a c = regs bus a c)
    by (intros a c; apply confined_setter).
  split; [exact H|].
  cbn [dacMode internalTemp _read read_byte_data bind ret fst].
  unfold byte_at.
  rewrite !H by (unfold lut_block, u8, REG_CONFIG, INTERNAL_TEMP; cbn; lia).
  split; reflexivity.
Qed.

(** X5: the DAC-mode setter changes no register but the configuration
    register 0x03 of the chip; the lookup table and the internal temperature
    read the same after it as before. *)
Theorem dacMode_setter_changes_only_config (value : bool) (bus : SMBus) :
  (forall a c, ~ (a = I2CADDRESS /\ c = 0x03) ->
     regs (snd (dacMode_setter value bus)) a c = regs bus a c)
  /\ fst (fanControlLookupTable (snd (dacMode_setter value bus)))
     = fst (fanControlLookupTable bus)
  /\ fst (internalTemp (snd (dacMode_setter value bus))) = fst (internalTemp bus).
Proof.
  assert (H : forall a c, ~ (a = I2CADDRESS /\ c = 0x03) ->
            regs (snd (dacMode_setter value bus)) a c = regs bus a c)
    by (intros a c; apply (confined_writeBool REG_CONFIG CONFIG_DAC value)).
  split; [exact H|]. split.
  - rewrite !getter_reads. cbn [fst]. f_equal.
    apply map_ext_in. intros i Hi. apply in_seq in Hi.
    cbv zeta. unfold byte_at.
    rewrite (u8_small (0x50 + 2 * Z.of_nat i)) by lia.
    rewrite H by lia. reflexivity.
  - cbn [internalTemp _read read_byte_data fst]. unfold byte_at.
    rewrite H by (unfold u8, INTERNAL_TEMP; cbn; lia). reflexivity.
Qed.

(** ** The read-modify-write on any register and mask *)

Lemma writeBool_testbit (r m : Z) (v : bool) (bus : SMBus) (k : Z) :
  Z.testbit (byte_at (snd (_writeBool r m v bus)) I2CADDRESS r) k
  = (k <? 8)
    && (if v then Z.testbit (byte_at bus I2CADDRESS r) k || Z.testbit m k
        else Z.testbit (byte_at bus I2CADDRESS r) k && negb (Z.testbit m k)).
Proof.
  destruct (writeBool_byte r m v bus) as [_ ->].
  rewrite u8_testbit.
  destruct (Z.ltb_spec k 0) as [Hneg|Hk].
  - rewrite !(Z.testbit_neg_r _ k Hneg). destruct v, (k <? 8); reflexivity.
  - destruct v.
    + rewrite Z.lor_spec. reflexivity.
    + rewrite Z.land_spec, Z.lnot_spec by exact Hk. reflexivity.
Qed.

Lemma byte_at_testbit (bus : SMBus) (a c k : Z) :
  Z.testbit (byte_at bus a c) k = (k <? 8) && Z.testbit (byte_at bus a c) k.
Proof.
  unfold byte_at. rewrite u8_testbit. destruct (k <? 8); reflexivity.
Qed.

(** X6: on any register and with any mask that the bus library takes as
    arguments, one bit or several, [_writeBool] returns and makes every bit of
    the register byte that the mask selects equal to the value given, keeping
    every other bit of the byte. *)
Theorem writeBool_sets_mask_bits_to_value
    (r m : Z) (v : bool) (bus : SMBus) (k : nat) :
  c_int r -> c_int m ->
  fst (_writeBool r m v bus) = Ok tt
  /\ Z.testbit (byte_at (snd (_writeBool r m v bus)) I2CADDRESS r) (Z.of_nat k)
     = if (k <? 8)%nat && Z.testbit m (Z.of_nat k) then v
       else Z.testbit (byte_at bus I2CADDRESS r) (Z.of_nat k).
Proof.
  intros _ _.
  split; [apply writeBool_byte|].
  rewrite writeBool_testbit.
  rewrite (byte_at_testbit bus I2CADDRESS r).
  replace (Z.of_nat k <? 8) with (k <? 8)%nat.
  2:{ destruct (Nat.ltb_spec k 8), (Z.ltb_spec (Z.of_nat k) 8); lia || reflexivity. }
  destruct v, (k <? 8)%nat, (Z.testbit (byte_at bus I2CADDRESS r) (Z.of_nat k)),
    (Z.testbit m (Z.of_nat k)); reflexivity.
Qed.

Lemma writeBool_sets_mask_bits_to_value_witness :
  fst (_writeBool REG_CONFIG 0x30 true (fresh_bus (fun _ _ => 0x41))) = Ok tt
  /\ Z.testbit (byte_at (snd (_writeBool REG_CONFIG 0x30 true
                                 (fresh_bus (fun _ _ => 0x41))))
                        I2CADDRESS REG_CONFIG) 5
     = true
  /\ byte_at (snd (_writeBool REG_CONFIG 0x30 true (fresh_bus (fun _ _ => 0x41))))
             I2CADDRESS REG_CONFIG
     = 0x71.
Proof.
  destruct (writeBool_sets_mask_bits_to_value REG_CONFIG 0x30 true
              (fresh_bus (fun _ _ => 0x41)) 5) as [H1 H2].
  - unfold c_int, REG_CONFIG. lia.
  - unfold c_int. lia.
  - split; [exact H1|]. split; [exact H2 | reflexivity].
Defined.

(** X7: writing a flag twice is the same as writing it the second time only:
    whatever was written first, the register byte ends as the last write
    alone would leave it. *)
Theorem writeBool_last_write_wins (r m : Z) (v v' : bool) (bus : SMBus) :
  byte_at (snd (_writeBool r m v (snd (_writeBool r m v' bus)))) I2CADDRESS r
  = byte_at (snd (_writeBool r m v bus)) I2CADDRESS r.
Proof.
  apply Z.bits_inj'. intros k _.
  rewrite !writeBool_testbit.
  destruct v, v', (k <? 8), (Z.testbit (byte_at bus I2CADDRESS r) k),
    (Z.testbit m k); reflexivity.
Qed.

(** X8: two flag writes on one register whose masks share no bit can be made
    in either order: the register byte ends the same. *)
Theorem writeBool_disjoint_masks_commute
    (r m1 m2 : Z) (v1 v2 : bool) (bus : SMBus) :
  Z.land m1 m2 = 0 ->
  byte_at (snd (_writeBool r m2 v2 (snd (_writeBool r m1 v1 bus)))) I2CADDRESS r
  = byte_at (snd (_writeBool r m1 v1 (snd (_writeBool r m2 v2 bus)))) I2CADDRESS r.
Proof.
  intros Hdisj. apply Z.bits_inj'. intros k _.
  assert (Hk : Z.testbit m1 k && Z.testbit m2 k = false)
    by (rewrite <- Z.land_spec, Hdisj; apply Z.bits_0).
  rewrite !writeBool_testbit.
  destruct v1, v2, (k <? 8), (Z.testbit (byte_at bus I2CADDRESS r) k),
    (Z.testbit m1 k), (Z.testbit m2 k); try reflexivity; discriminate Hk.
Qed.

Lemma writeBool_disjoint_masks_commute_witness :
  byte_at (snd (_writeBool REG_CONFIG CONFIG_STANDBY false
                  (snd (_writeBool REG_CONFIG CONFIG_DAC true
                          (fresh_bus (fun _ _ => 0x41))))))
          I2CADDRESS REG_CONFIG
  = 0x11
  /\ byte_at (snd (_writeBool REG_CONFIG CONFIG_DAC true
                     (snd (_writeBool REG_CONFIG CONFIG_STANDBY false
                             (fresh_bus (fun _ _ => 0x41))))))
             I2CADDRESS REG_CONFIG
     = 0x11.
Proof.
  split; [reflexivity|].
  rewrite <- (writeBool_disjoint_masks_commute REG_CONFIG CONFIG_DAC CONFIG_STANDBY
                true false (fresh_bus (fun _ _ => 0x41)) eq_refl).
  reflexivity.
Defined.

(** X9: the DAC mode read after it has been set is the value it was set to. *)
Theorem dacMode_reads_what_was_set (value : bool) (bus : SMBus) :
  fst ((dacMode_setter value ;;; dacMode) bus) = Ok value.
Proof.
  unfold bind.
  destruct (dacMode_setter value bus) as [res bus'] eqn:E.
  assert (Hres : res = Ok tt).
  { change res with (fst (res, bus')). rewrite <- E.
    apply (writeBool_byte REG_CONFIG CONFIG_DAC value bus). }
  subst res.
  change (fst (dacMode bus'))
    with (Ok (negb (Z.land (byte_at bus' I2CADDRESS REG_CONFIG) (2 ^ 4) =? 0))).
  rewrite nonzero_land_testbit by lia.
  change bus' with (snd (Ok tt, bus')). rewrite <- E.
  unfold dacMode_setter. rewrite writeBool_testbit.
  change (Z.testbit CONFIG_DAC 4) with true.
  destruct value, (Z.testbit (byte_at bus I2CADDRESS REG_CONFIG) 4); reflexivity.
Qed.

(** ** The lookup table in the registers *)

(** X10: after the setter has been given at most 8 pairs of bytes, a register
    read of slot [i]'s temperature register returns the temperature of pair
    [i], and a read of its speed register returns the speed of pair [i]: the
    table is in the registers as it was given. *)
Theorem setter_stores_pairs_in_registers
    (value : list (Z * Z)) (bus : SMBus) (i : nat) (t s : Z) :
  (length value <= 8)%nat ->
  nth_error value i = Some (t, s) ->
  0 <= t < 256 -> 0 <= s < 256 ->
  fst (_read (0x50 + 2 * Z.of_nat i) (snd (fanControlLookupTable_setter value bus)))
  = Ok t
  /\ fst (_read (0x51 + 2 * Z.of_nat i) (snd (fanControlLookupTable_setter value bus)))
     = Ok s.
Proof.
  intros Hlen Hp Ht Hs. rewrite setter_within_table by exact Hlen.
  cbn [_read read_byte_data fst snd].
  destruct (table_writes_hit value 0 i (t, s) bus Hlen Hp) as [H1 H2].
  cbn [Nat.add fst snd] in H1, H2.
  rewrite H1, H2, !u8_small by assumption. split; reflexivity.
Qed.

Lemma setter_stores_pairs_in_registers_witness :
  fst (_read 0x52 (snd (fanControlLookupTable_setter [(20, 10); (30, 20)]
                          (fresh_bus (fun _ _ => 0))))) = Ok 30
  /\ fst (_read 0x53 (snd (fanControlLookupTable_setter [(20, 10); (30, 20)]
                             (fresh_bus (fun _ _ => 0))))) = Ok 20.
Proof.
  apply (setter_stores_pairs_in_registers
           [(20, 10); (30, 20)] (fresh_bus (fun _ _ => 0)) 1 30 20);
    [cbn; lia | reflexivity | lia | lia].
Defined.

(** X11: when a table is written over an earlier one, the slots the new table
    has hold the new pairs, and the slots beyond its end still hold the pairs
    of the earlier table. *)
Theorem setter_over_earlier_table
    (old new : list (Z * Z)) (bus : SMBus) (i : nat) (p : Z * Z) :
  (length old <= 8)%nat -> (length new <= 8)%nat ->
  nth_error (new ++ skipn (length new) old) i = Some p ->
  byte_at (snd (fanControlLookupTable_setter new
                  (snd (fanControlLookupTable_setter old bus))))
          I2CADDRESS (0x50 + 2 * Z.of_nat i) = u8 (fst p)
  /\ byte_at (snd (fanControlLookupTable_setter new
                     (snd (fanControlLookupTable_setter old bus))))
             I2CADDRESS (0x51 + 2 * Z.of_nat i) = u8 (snd p).
Proof.
  intros Hold Hnew Hp.
  rewrite (setter_within_table old) by exact Hold. cbn [snd].
  rewrite (setter_within_table new) by exact Hnew. cbn [snd].
  destruct (Nat.ltb_spec i (length new)) as [Hi|Hi].
  - rewrite nth_error_app1 in Hp by exact Hi.
    apply (table_writes_hit new 0 i p _ Hnew Hp).
  - rewrite nth_error_app2 in Hp by exact Hi.
    rewrite nth_error_skipn in Hp.
    replace (length new + (i - length new))%nat with i in Hp by lia.
    assert (i < length old)%nat by (apply nth_error_Some; congruence).
    destruct (table_writes_hit old 0 i p bus Hold Hp) as [H1 H2].
    cbn [Nat.add] in H1, H2. cbv zeta in H1, H2.
    unfold byte_at in *.
    rewrite (u8_small (0x50 + 2 * Z.of_nat i)) in * by lia.
    rewrite (u8_small (0x51 + 2 * Z.of_nat i)) in * by lia.
    rewrite !(regs_replay_untouched (table_writes 0 new))
      by (apply table_writes_untouched; lia).
    split; assumption.
Qed.

Lemma setter_over_earlier_table_witness :
  byte_at (snd (fanControlLookupTable_setter [(1, 2)]
                  (snd (fanControlLookupTable_setter [(20, 10); (30, 20)]
                          (fresh_bus (fun _ _ => 0))))))
          I2CADDRESS 0x52 = 30
  /\ byte_at (snd (fanControlLookupTable_setter [(1, 2)]
                     (snd (fanControlLookupTable_setter [(20, 10); (30, 20)]
                             (fresh_bus (fun _ _ => 0))))))
             I2CADDRESS 0x53 = 20.
Proof.
  apply (setter_over_earlier_table
           [(20, 10); (30, 20)] [(1, 2)] (fresh_bus (fun _ _ => 0)) 1 (30, 20));
    [cbn; lia | cbn; lia | reflexivity].
Defined.

Lemma length_table_writes (value : list (Z * Z)) (k : nat) :
  length (table_writes k value) = (2 * length value)%nat.
Proof.
  revert k. induction value as [|p rest IH]; intros k; cbn [table_writes].
  - reflexivity.
  - rewrite length_app, IH. cbn [slot_writes length]. lia.
Qed.

Lemma table_writes_are_writes (value : list (Z * Z)) (k : nat) :
  Forall (fun t => is_write t = true) (table_writes k value).
Proof.
  revert k. induction value as [|p rest IH]; intros k; cbn [table_writes slot_writes app].
  - constructor.
  - constructor; [reflexivity|]. constructor; [reflexivity|]. apply IH.
Qed.

(** X12: the setter issues two writes for each of the first 8 pairs it is
    given and nothing else: no read, nothing for a ninth or later pair, and
    no call at all for an empty list. *)
Theorem setter_issues_two_writes_per_slot (value : list (Z * Z)) (bus : SMBus) :
  exists new,
    journal (snd (fanControlLookupTable_setter value bus)) = journal bus ++ new
    /\ length new = (2 * Nat.min (length value) 8)%nat
    /\ Forall (fun t => is_write t = true) new.
Proof.
  destruct (Nat.leb_spec (length value) 8) as [Hle|Hgt].
  - rewrite setter_within_table by exact Hle. cbn [snd].
    exists (table_writes 0 value). split; [apply journal_replay_all|].
    split; [rewrite length_table_writes; lia | apply table_writes_are_writes].
  - rewrite setter_past_table by exact Hgt. cbn [snd].
    exists (table_writes 0 (firstn 8 value)). split; [apply journal_replay_all|].
    split; [|apply table_writes_are_writes].
    rewrite length_table_writes, length_firstn. lia.
Qed.

(** ** The two register tables *)

(** X13: [REG_LOOKUP_T] and [REG_LOOKUP_S] accept the same subscripts, -8 to
    7 (negative ones counting from the end), and refuse every other with
    [IndexError]; where they accept, the temperature register is the even
    address 0x50 + 2*(i mod 8) and the speed register is the one after it. *)
Theorem lookup_register_tables (i : Z) :
  range_getitem REG_LOOKUP_T i
  = (if (-8 <=? i) && (i <? 8) then Ok (0x50 + 2 * (i mod 8)) else Raise IndexError)
  /\ range_getitem REG_LOOKUP_S i
     = (if (-8 <=? i) && (i <? 8) then Ok (0x50 + 2 * (i mod 8) + 1)
        else Raise IndexError).
Proof.
  unfold range_getitem.
  change (range_len REG_LOOKUP_T) with 8. change (range_len REG_LOOKUP_S) with 8.
  change (start REG_LOOKUP_T) with 0x50. change (step REG_LOOKUP_T) with 2.
  change (start REG_LOOKUP_S) with 0x51. change (step REG_LOOKUP_S) with 2.
  unfold subscript.
  destruct (Z.leb_spec (-8) i) as [Hlo|Hlo], (Z.ltb_spec i 8) as [Hhi|Hhi],
    (Z.ltb_spec i 0) as [Hneg|Hneg]; cbn [andb]; cbv zeta; try lia.
  - (* -8 <= i < 0 *)
    replace (i + 8 <? 0) with false by (symmetry; apply Z.ltb_ge; lia).
    replace (8 <=? i + 8) with false by (symmetry; apply Z.leb_gt; lia).
    cbn [orb].
    replace (i mod 8) with (i + 8)
      by (apply (Z.mod_unique i 8 (-1) (i + 8)); lia).
    split; f_equal; lia.
  - (* 0 <= i < 8 *)
    replace (i <? 0) with false by (symmetry; apply Z.ltb_ge; lia).
    replace (8 <=? i) with false by (symmetry; apply Z.leb_gt; lia).
    cbn [orb]. rewrite Z.mod_small by lia.
    split; f_equal; lia.
  - (* 8 <= i *)
    replace (i <? 0) with false by (symmetry; apply Z.ltb_ge; lia).
    replace (8 <=? i) with true by (symmetry; apply Z.leb_le; lia).
    split; reflexivity.
  - (* i < -8 *)
    replace (i + 8 <? 0) with true by (symmetry; apply Z.ltb_lt; lia).
    split; reflexivity.
Qed.

(** ** The alert mask *)

Lemma lor_eqb_0 (a b : Z) : (Z.lor a b =? 0) = (a =? 0) && (b =? 0).
Proof.
  destruct (Z.eqb_spec a 0) as [->|Ha], (Z.eqb_spec b 0) as [->|Hb]; cbn [andb].
  - reflexivity.
  - apply Z.eqb_neq. intros H. apply Z.lor_eq_0_iff in H. tauto.
  - apply Z.eqb_neq. intros H. apply Z.lor_eq_0_iff in H. tauto.
  - apply Z.eqb_neq. intros H. apply Z.lor_eq_0_iff in H. tauto.
Qed.

(** X14: a status byte has a bit in common with [STATUS_ALERT] exactly when it
    has one of the six alarm flags TACH, TCRIT, FAULT, EXTLOW, EXTHIGH or
    INTHIGH; the busy and EEPROM flags are no part of the mask. *)
Theorem status_alert_is_the_six_alarms (status : Z) :
  (Z.land status STATUS_ALERT =? 0)
  = forallb (fun F => Z.land status F =? 0) ALERT_FLAGS
  /\ Z.land STATUS_BUSY STATUS_ALERT = 0
  /\ Z.land STATUS_EEPROM STATUS_ALERT = 0.
Proof.
  split; [|split; reflexivity].
  unfold STATUS_ALERT, ALERT_FLAGS. cbn [forallb].
  rewrite !Z.land_lor_distr_r, !lor_eqb_0, andb_true_r, <- !andb_assoc.
  reflexivity.
Qed.
